(** * hng13-stage1-devops: the Flask application [app.py]

    A shallow embedding of [app.py] and of the parts of its collaborators
    (datetime, Flask's routing and response construction) that the
    application calls, followed by the properties of the deployment page. *)

From Stdlib Require Import String Ascii List NArith ZArith Arith Bool Lia.
Import ListNotations.
Open Scope N_scope.
Open Scope string_scope.
Open Scope list_scope.

(** ** Python results: a value or a raised exception *)

Inductive exn : Type :=
| TemplateNotFound (name : string)
| TemplateRenderError (placeholder : string)
| HTTPException (code : N)
| ValueError (msg : string)
| KeyError (key : string).

Inductive result (A : Type) : Type :=
| Ok (a : A)
| Raise (e : exn).
Arguments Ok {A} a.
Arguments Raise {A} e.

(** ** datetime: [datetime.now()] values and [strftime] *)

Module Datetime.

Record datetime : Type := mk {
  year : N;
  month : N;
  day : N;
  hour : N;
  minute : N;
  second : N
}.

(** The values [datetime] can hold (MINYEAR = 1, MAXYEAR = 9999). *)
Definition in_range (d : datetime) : bool :=
  (N.leb 1 (year d) && N.leb (year d) 9999 &&
   N.leb 1 (month d) && N.leb (month d) 12 &&
   N.leb 1 (day d) && N.leb (day d) 31).

Definition digit (n : N) : ascii := ascii_of_N (48 + n mod 10).

(** Decimal numeral of [n], most significant digit first, no padding. *)
Fixpoint decimal_aux (fuel : nat) (n : N) (acc : string) : string :=
  match fuel with
  | O => acc
  | S fuel' =>
      let acc' := String (digit n) acc in
      if N.eqb (n / 10) 0 then acc' else decimal_aux fuel' (n / 10) acc'
  end.

(** A numeral has no more decimal digits than binary ones. *)
Definition decimal (n : N) : string :=
  decimal_aux (S (N.to_nat (N.log2 n))) n "".

(** [%d] and [%m]: two digits, padded with a zero. *)
Definition pad2 (n : N) : string :=
  String (digit (n / 10)) (String (digit n) "").

(** One conversion specification.  [%Y] is the year as a decimal number,
    as the C library prints it; the directives [app.py] does not use are
    left in place. *)
Definition directive (c : ascii) (d : datetime) : string :=
  if Ascii.eqb c "d" then pad2 (day d)
  else if Ascii.eqb c "m" then pad2 (month d)
  else if Ascii.eqb c "Y" then decimal (year d)
  else if Ascii.eqb c "H" then pad2 (hour d)
  else if Ascii.eqb c "M" then pad2 (minute d)
  else if Ascii.eqb c "S" then pad2 (second d)
  else if Ascii.eqb c "%" then "%"
  else String "%" (String c "").

Fixpoint strftime (fmt : string) (d : datetime) : string :=
  match fmt with
  | EmptyString => EmptyString
  | String c rest =>
      if Ascii.eqb c "%" then
        match rest with
        | EmptyString => String c EmptyString
        | String c' rest' => directive c' d ++ strftime rest' d
        end
      else String c (strftime rest d)
  end.

(** A year of four digits. *)
Definition four_digits (y : N) : string :=
  string_of_list_ascii
    [digit (y / 1000); digit (y / 100); digit (y / 10); digit y].

(** The date layout in the words of the specification: zero-padded day,
    zero-padded month, four-digit year, separated by slashes. *)
Definition dd_mm_yyyy (d : datetime) : string :=
  string_of_list_ascii
    [digit (day d / 10); digit (day d); "/"%char;
     digit (month d / 10); digit (month d); "/"%char;
     digit (year d / 1000); digit (year d / 100);
     digit (year d / 10); digit (year d)].

Definition is_digit (c : ascii) : bool :=
  N.leb 48 (N_of_ascii c) && N.leb (N_of_ascii c) 57.

(** The pattern DD/MM/YYYY: ten characters, digits around two slashes. *)
Definition matches_ddmmyyyy (s : string) : bool :=
  match s with
  | String d1 (String d2 (String s1 (String m1 (String m2 (String s2
      (String y1 (String y2 (String y3 (String y4 EmptyString))))))))) =>
      is_digit d1 && is_digit d2 && Ascii.eqb s1 "/" &&
      is_digit m1 && is_digit m2 && Ascii.eqb s2 "/" &&
      is_digit y1 && is_digit y2 && is_digit y3 && is_digit y4
  | _ => false
  end.

End Datetime.

(** ** The builtin [int] on decimal text *)

Fixpoint int_aux (s : string) (acc : N) : option N :=
  match s with
  | EmptyString => Some acc
  | String c s' =>
      if Datetime.is_digit c
      then int_aux s' (10 * acc + (N_of_ascii c - 48))
      else None
  end.

Definition int (s : string) : option N :=
  match s with
  | EmptyString => None
  | _ => int_aux s 0
  end.

(** ** HTTP messages, as Flask hands them to and takes them from a view *)

Definition kwargs : Type := list (string * string).

Fixpoint lookup {A : Type} (k : string) (l : list (string * A)) : option A :=
  match l with
  | [] => None
  | (k', v) :: l' => if String.eqb k k' then Some v else lookup k l'
  end.

Definition keys {A : Type} (l : list (string * A)) : list string :=
  map fst l.

Record Request : Type := mkRequest {
  method : string;
  path : string;           (* the path the URL map is matched against *)
  query_string : string;
  headers : list (string * string);
  data : string
}.

Record Response : Type := mkResponse {
  status : N;
  mimetype : string;
  response_headers : list (string * string);
  body : string
}.

Definition content_type (r : Response) : string :=
  mimetype r ++ "; charset=utf-8".

(** ** The world the process runs in, and the monad of its statements

    A statement reads and extends the world and either returns a value or
    raises; the trace keeps every call made to a collaborator. *)

Inductive Event : Type :=
| EvClockRead (t : Datetime.datetime)
| EvRender (template : string) (context : kwargs)
| EvRun (host : string) (port : N).

Record World : Type := mkWorld {
  clock : Datetime.datetime;               (* local time of the system clock *)
  environ : list (string * string);        (* os.environ *)
  static_folder : list (string * Response);(* files Flask serves under /static/ *)
  trace : list Event
}.

Definition M (A : Type) : Type := World -> result A * World.

Definition ret {A : Type} (a : A) : M A := fun w => (Ok a, w).

Definition raise {A : Type} (e : exn) : M A := fun w => (Raise e, w).

Definition bind {A B : Type} (c : M A) (k : A -> M B) : M B :=
  fun w =>
    match c w with
    | (Ok a, w') => k a w'
    | (Raise e, w') => (Raise e, w')
    end.

Notation "x <- c ;; k" := (bind c (fun x => k))
  (at level 61, c at next level, right associativity).
Notation "c ;;; k" := (bind c (fun _ => k))
  (at level 61, right associativity).

(** The world with the events [evs] added to its trace. *)
Definition extend (w : World) (evs : list Event) : World :=
  {| clock := clock w; environ := environ w;
     static_folder := static_folder w;
     trace := trace w ++ evs |}.

Definition log (e : Event) : M unit :=
  fun w => (Ok tt, extend w [e]).

(** [datetime.now()]: one reading of the system clock. *)
Definition datetime_now : M Datetime.datetime :=
  fun w => (log (EvClockRead (clock w)) ;;; ret (clock w)) w.

(** The world moves on between two requests: the clock shows [t]. *)
Definition set_clock (t : Datetime.datetime) (w : World) : World :=
  {| clock := t; environ := environ w;
     static_folder := static_folder w; trace := trace w |}.

(** The events of loading the module under the name [name]. *)
Definition load_events (name : string) (w : World) : list Event :=
  EvClockRead (clock w) ::
  (if String.eqb name "__main__" then [EvRun "0.0.0.0" 5000] else []).

(** The same world with another environment. *)
Definition set_environ (env : list (string * string)) (w : World) : World :=
  {| clock := clock w; environ := env;
     static_folder := static_folder w; trace := trace w |}.

Definition count_clock_reads (tr : list Event) : nat :=
  length (filter (fun e => match e with EvClockRead _ => true | _ => false end) tr).

Definition render_calls (tr : list Event) : list (string * kwargs) :=
  flat_map (fun e => match e with EvRender t c => [(t, c)] | _ => [] end) tr.

Definition run_calls (tr : list Event) : list (string * N) :=
  flat_map (fun e => match e with EvRun h p => [(h, p)] | _ => [] end) tr.

(** ** Flask: what the calls made by [app.py] do

    Flask and Werkzeug are libraries, not part of the repository; this is
    their behaviour on the calls the application makes: the constructor,
    [route], the dispatch of a request over the URL map, the construction
    of a response from a view's return value, the default handling of
    exceptions, and the address [run] serves on. *)

Module Flask.

(** What a view may return: text, or a response object. *)
Inductive rv : Type :=
| RvStr (s : string)
| RvResponse (r : Response).

Record Rule : Type := mkRule {
  rule : string;                    (* the literal part of the URL rule *)
  path_arg : option string;         (* a trailing <path:NAME> converter *)
  methods : list string;
  endpoint : string;
  provide_automatic_options : bool
}.

(** A view gets the request, the URL arguments and the globals of the
    module that defines it. *)
Definition View (G : Type) : Type := Request -> kwargs -> G -> M rv.

Record App (G : Type) : Type := mkApp {
  import_name : string;
  config : list (string * string);
  url_map : list Rule;
  view_functions : list (string * View G);
  error_handler_spec : list (N * (exn -> Response))
}.
Arguments mkApp {G}.
Arguments import_name {G}.
Arguments config {G}.
Arguments url_map {G}.
Arguments view_functions {G}.
Arguments error_handler_spec {G}.

Definition mem (x : string) (l : list string) : bool :=
  existsb (String.eqb x) l.

Definition add (x : string) (l : list string) : list string :=
  if mem x l then l else l ++ [x].

(** [add_url_rule]: without a [methods] argument a rule answers GET;
    OPTIONS is added and answered by Flask itself unless the rule lists
    it; Werkzeug's [Rule] adds HEAD to every rule that has GET.  A HEAD
    request runs the view as GET does; the server then sends the headers
    of the response without its body. *)
Definition add_url_rule {G : Type} (app : App G) (r : string)
    (arg : option string) (ep : string) (view : View G)
    (meths : option (list string)) : App G :=
  let ms := match meths with None => ["GET"] | Some l => l end in
  let auto := negb (mem "OPTIONS" ms) in
  let ms := if auto then add "OPTIONS" ms else ms in
  let ms := if mem "GET" ms then add "HEAD" ms else ms in
  {| import_name := import_name app;
     config := config app;
     url_map := url_map app ++
       [{| rule := r; path_arg := arg; methods := ms; endpoint := ep;
           provide_automatic_options := auto |}];
     view_functions := (ep, view) :: view_functions app;
     error_handler_spec := error_handler_spec app |}.

(** The decorator [@app.route(rule)] on a function named [ep]. *)
Definition route {G : Type} (app : App G) (r : string) (ep : string)
    (view : View G) : App G :=
  add_url_rule app r None ep view None.

(** The view of the built-in endpoint [static]. *)
Definition send_static_file {G : Type} : View G :=
  fun _ args _ w =>
    match lookup "filename" args with
    | None => (Raise (KeyError "filename"), w)
    | Some f =>
        match lookup f (static_folder w) with
        | Some r => (Ok (RvResponse r), w)
        | None => (Raise (HTTPException 404), w)
        end
    end.

(** [Flask(import_name)]: default configuration, no error handler, and
    the rule [/static/<path:filename>] of the default static folder. *)
Definition Flask {G : Type} (name : string) : App G :=
  add_url_rule
    {| import_name := name; config := []; url_map := [];
       view_functions := []; error_handler_spec := [] |}
    "/static/" (Some "filename") "static" send_static_file None.

(** *** Matching a request against the URL map *)

Fixpoint strip_prefix (pre s : string) : option string :=
  match pre with
  | EmptyString => Some s
  | String c pre' =>
      match s with
      | EmptyString => None
      | String c' s' => if Ascii.eqb c c' then strip_prefix pre' s' else None
      end
  end.

Definition rule_match (r : Rule) (p : string) : option kwargs :=
  match path_arg r with
  | None => if String.eqb p (rule r) then Some [] else None
  | Some x =>
      match strip_prefix (rule r) p with
      | Some (String c rest) =>
          if Ascii.eqb c "/" then None else Some [(x, String c rest)]
      | _ => None
      end
  end.

Inductive MatchResult : Type :=
| Matched (r : Rule) (args : kwargs)
| MethodNotAllowed (valid_methods : list string)
| NotFound.

Fixpoint url_match (rules : list Rule) (meth p : string)
    (have_match_for : list string) : MatchResult :=
  match rules with
  | [] =>
      match have_match_for with
      | [] => NotFound
      | _ => MethodNotAllowed have_match_for
      end
  | r :: rs =>
      match rule_match r p with
      | Some args =>
          if mem meth (methods r) then Matched r args
          else url_match rs meth p (have_match_for ++ methods r)
      | None => url_match rs meth p have_match_for
      end
  end.

(** *** Responses *)

Definition join_methods (l : list string) : string := String.concat ", " l.

Definition make_default_options_response (r : Rule) : Response :=
  {| status := 200; mimetype := "text/html";
     response_headers := [("Allow", join_methods (methods r))];
     body := "" |}.

(** [make_response]: text becomes the body of a 200 text/html response. *)
Definition make_response (v : rv) : Response :=
  match v with
  | RvStr s =>
      {| status := 200; mimetype := "text/html";
         response_headers := []; body := s |}
  | RvResponse r => r
  end.

Definition reason_phrase (code : N) : string :=
  if N.eqb code 404 then "Not Found"
  else if N.eqb code 405 then "Method Not Allowed"
  else if N.eqb code 500 then "Internal Server Error"
  else "Unknown Error".

(** The page Werkzeug builds for an HTTP exception. *)
Definition default_error_response (code : N) : Response :=
  {| status := code; mimetype := "text/html";
     response_headers := []; body := reason_phrase code |}.

Fixpoint find_error_handler (code : N)
    (hs : list (N * (exn -> Response))) : option (exn -> Response) :=
  match hs with
  | [] => None
  | (c, h) :: hs' => if N.eqb c code then Some h else find_error_handler code hs'
  end.

(** *** Dispatch *)

Definition dispatch_request {G : Type} (app : App G) (g : G)
    (req : Request) : M rv :=
  match url_match (url_map app) (method req) (path req) [] with
  | NotFound => raise (HTTPException 404)
  | MethodNotAllowed _ => raise (HTTPException 405)
  | Matched r args =>
      if provide_automatic_options r && String.eqb (method req) "OPTIONS"
      then ret (RvResponse (make_default_options_response r))
      else
        match lookup (endpoint r) (view_functions app) with
        | Some view => view req args g
        | None => raise (KeyError (endpoint r))
        end
  end.

(** An exception leaving the view goes to the handler registered for its
    status code; without one, an HTTP exception answers for itself and
    any other exception becomes the 500 page. *)
Definition handle_exception {G : Type} (app : App G) (e : exn) : Response :=
  let code := match e with HTTPException c => c | _ => 500 end in
  match find_error_handler code (error_handler_spec app) with
  | Some h => h e
  | None => default_error_response code
  end.

Definition wsgi_app {G : Type} (app : App G) (g : G) (req : Request)
    : M Response :=
  fun w =>
    match dispatch_request app g req w with
    | (Ok v, w') => (Ok (make_response v), w')
    | (Raise e, w') => (Ok (handle_exception app e), w')
    end.

(** *** [run]: the address the server listens on *)

Fixpoint partition_colon (s : string) : string * string :=
  match s with
  | EmptyString => (EmptyString, EmptyString)
  | String c s' =>
      if Ascii.eqb c ":" then (EmptyString, s')
      else let '(a, b) := partition_colon s' in (String c a, b)
  end.

(** [run(host, port)]: an argument that is given wins; otherwise the
    SERVER_NAME of the configuration, then 127.0.0.1 and 5000. *)
Definition run {G : Type} (app : App G) (host : option string)
    (port : option N) : M unit :=
  let '(sn_host, sn_port) :=
    match lookup "SERVER_NAME" (config app) with
    | Some sn => partition_colon sn
    | None => (EmptyString, EmptyString)
    end in
  let default_host :=
    if String.eqb sn_host "" then "127.0.0.1" else sn_host in
  let h :=
    match host with
    | Some h => if String.eqb h "" then default_host else h
    | None => default_host
    end in
  match port with
  | Some p => log (EvRun h p)
  | None =>
      if String.eqb sn_port "" then log (EvRun h 5000)
      else
        match int sn_port with
        | Some p => log (EvRun h p)
        | None => raise (ValueError sn_port)
        end
  end.

End Flask.

(** ** [app.py] *)

(** The three module-level names of the "Deployment Info" block. *)
Record DeploymentInfo : Type := mkInfo {
  DEVOPS_STAGE : string;
  DEV_NAME : string;
  DEPLOY_DATE : string
}.

(** The module after its top-level statements have run. *)
Record Namespace : Type := mkNamespace {
  app : Flask.App DeploymentInfo;
  info : DeploymentInfo
}.

(** The keyword arguments [home] passes to [render_template]. *)
Definition template_context (g : DeploymentInfo) : kwargs :=
  [("stage", DEVOPS_STAGE g);
   ("dev_name", DEV_NAME g);
   ("deploy_date", DEPLOY_DATE g)].

(** The events one request may add: none, or one call of the renderer. *)
Definition request_events (g : DeploymentInfo) (evs : list Event) : Prop :=
  evs = [] \/ evs = [EvRender "index.html" (template_context g)].

Section AppPy.

(** The templating collaborator behind [render_template]: from a template
    name and the keyword arguments to the page, or an exception. *)
Variable renderer : string -> kwargs -> result string.

Definition render_template (template_name : string) (context : kwargs)
    : M string :=
  log (EvRender template_name context) ;;;
  (fun w => (renderer template_name context, w)).

(** Lines 7 to 9. *)
Definition deployment_info : M DeploymentInfo :=
  now <- datetime_now ;;
  ret {| DEVOPS_STAGE := "Stage 1";
         DEV_NAME := "Ibrahim Nassar";
         DEPLOY_DATE := Datetime.strftime "%d/%m/%Y" now |}.

(** Lines 12 to 18: the view reads the module globals when it is called,
    and nothing of the request. *)
Definition home : Flask.View DeploymentInfo :=
  fun _ _ g =>
    page <- render_template "index.html" (template_context g) ;;
    ret (Flask.RvStr page).

(** The module, top to bottom, run under the name [__name__]. *)
Definition app_py (__name__ : string) : M Namespace :=
  let app0 := Flask.Flask __name__ in
  g <- deployment_info ;;
  let app1 := Flask.route app0 "/" "home" home in
  (if String.eqb __name__ "__main__"
   then Flask.run app1 (Some "0.0.0.0") (Some 5000)
   else ret tt) ;;;
  ret {| app := app1; info := g |}.

(** The application object once the module is loaded. *)
Definition loaded_app (__name__ : string) : Flask.App DeploymentInfo :=
  Flask.route (Flask.Flask __name__) "/" "home" home.

(** One request handled by the loaded module. *)
Definition handle (ns : Namespace) (req : Request) : M Response :=
  Flask.wsgi_app (app ns) (info ns) req.

(** The requests of a process lifetime, each arriving at its own time. *)
Fixpoint serve (ns : Namespace) (reqs : list (Datetime.datetime * Request))
    : M (list Response) :=
  match reqs with
  | [] => ret []
  | (t, req) :: rest =>
      fun w =>
        (resp <- handle ns req ;;
         resps <- serve ns rest ;;
         ret (resp :: resps)) (set_clock t w)
  end.

(** A process: the module is loaded, then requests are served. *)
Definition process (__name__ : string)
    (reqs : list (Datetime.datetime * Request)) : M (list Response) :=
  ns <- app_py __name__ ;;
  serve ns reqs.

End AppPy.

(** The two rules of the URL map of the loaded application. *)
Definition static_rule : Flask.Rule :=
  {| Flask.rule := "/static/"; Flask.path_arg := Some "filename";
     Flask.methods := ["GET"; "OPTIONS"; "HEAD"];
     Flask.endpoint := "static";
     Flask.provide_automatic_options := true |}.

Definition root_rule : Flask.Rule :=
  {| Flask.rule := "/"; Flask.path_arg := None;
     Flask.methods := ["GET"; "OPTIONS"; "HEAD"];
     Flask.endpoint := "home";
     Flask.provide_automatic_options := true |}.

(** ** The page renderer *)

Module Templates.

(** Modelled from the spec: the template engine and the template file
    [templates/index.html] are not among the sources.  A template is text
    with named placeholders; rendering substitutes the value bound to each
    placeholder, fails with TemplateNotFound when the name resolves to no
    template and with TemplateRenderError when a placeholder is unbound. *)
Inductive Segment : Type :=
| Text (s : string)
| Placeholder (name : string).

Definition Template : Type := list Segment.

Fixpoint substitute (t : Template) (ctx : kwargs) : result string :=
  match t with
  | [] => Ok EmptyString
  | Text s :: t' =>
      match substitute t' ctx with
      | Ok r => Ok (s ++ r)%string
      | Raise e => Raise e
      end
  | Placeholder x :: t' =>
      match lookup x ctx with
      | None => Raise (TemplateRenderError x)
      | Some v =>
          match substitute t' ctx with
          | Ok r => Ok (v ++ r)%string
          | Raise e => Raise e
          end
      end
  end.

Definition page_renderer (templates : list (string * Template))
    (name : string) (ctx : kwargs) : result string :=
  match lookup name templates with
  | None => Raise (TemplateNotFound name)
  | Some t => substitute t ctx
  end.

End Templates.

(** [contains sub s]: [sub] occurs in [s]. *)
Fixpoint contains (sub s : string) : bool :=
  String.prefix sub s ||
  match s with
  | EmptyString => false
  | String _ s' => contains sub s'
  end.

(** Some ten characters of [s] in a row have the layout DD/MM/YYYY. *)
Fixpoint contains_date (s : string) : bool :=
  Datetime.matches_ddmmyyyy (String.substring 0 10 s) ||
  match s with
  | EmptyString => false
  | String _ s' => contains_date s'
  end.

(** ** A sample deployment: a page, a world and some requests *)

Module Sample.
Import Templates.

Definition index_html : Template :=
  [Text "<h1>HNG13 "; Placeholder "stage"; Text "</h1><p>";
   Placeholder "dev_name"; Text "</p><p>Deployed on ";
   Placeholder "deploy_date"; Text "</p>"].

Definition renderer : string -> kwargs -> result string :=
  page_renderer [("index.html", index_html)].

(** A templates folder without [index.html]. *)
Definition no_templates : string -> kwargs -> result string :=
  page_renderer [].

Definition world : World :=
  {| clock := Datetime.mk 2024 4 5 9 30 0;
     environ := [("PORT", "8080"); ("FLASK_RUN_HOST", "127.0.0.1")];
     static_folder := [];
     trace := [] |}.

Definition request (m p : string) : Request :=
  {| method := m; path := p; query_string := "";
     headers := []; data := "" |}.

(** A GET request to "/" that carries a query, headers and a body. *)
Definition busy_request : Request :=
  {| method := "GET"; path := "/"; query_string := "stage=2&dev=x";
     headers := [("User-Agent", "curl/8.5"); ("X-Stage", "Stage 9")];
     data := "deploy_date=01/01/1970" |}.

Definition later : Datetime.datetime := Datetime.mk 2025 1 1 0 0 0.

(** The module loaded in [world] under the name [app], not as a script. *)
Definition deployment : DeploymentInfo :=
  {| DEVOPS_STAGE := "Stage 1"; DEV_NAME := "Ibrahim Nassar";
     DEPLOY_DATE := "05/04/2024" |}.

Definition namespace (r : string -> kwargs -> result string) : Namespace :=
  {| app := loaded_app r "app"; info := deployment |}.

Definition page : string :=
  "<h1>HNG13 Stage 1</h1><p>Ibrahim Nassar</p><p>Deployed on 05/04/2024</p>".

End Sample.

(** * Properties *)

(** ** The date format *)

Module DatetimeFacts.
Import Datetime.

(** Linear arithmetic with quotients and remainders by constants. *)
Ltac div_lia := zify; Z.to_euclidean_division_equations; lia.

Lemma digit_is_digit (n : N) : is_digit (digit n) = true.
Proof.
  unfold is_digit, digit.
  assert (Hm : n mod 10 < 10) by (apply N.mod_lt; discriminate).
  generalize dependent (n mod 10); intros m Hm.
  rewrite N_ascii_embedding by lia.
  apply andb_true_intro; split; apply N.leb_le; lia.
Qed.

Lemma matches_dd_mm_yyyy (d : datetime) :
  matches_ddmmyyyy (dd_mm_yyyy d) = true.
Proof.
  unfold dd_mm_yyyy, matches_ddmmyyyy; cbn [string_of_list_ascii].
  rewrite !digit_is_digit. reflexivity.
Qed.

Lemma div_chain (y : N) :
  1000 <= y <= 9999 ->
  y / 10 <> 0 /\ y / 10 / 10 <> 0 /\ y / 10 / 10 / 10 <> 0 /\
  y / 10 / 10 / 10 / 10 = 0 /\
  y / 10 / 10 = y / 100 /\ y / 10 / 10 / 10 = y / 1000.
Proof.
  intros Hy.
  assert (H2 : y / 10 / 10 = y / 100) by (rewrite N.Div0.div_div; reflexivity).
  assert (H3 : y / 10 / 10 / 10 = y / 1000)
    by (rewrite !N.Div0.div_div; reflexivity).
  assert (H4 : y / 10 / 10 / 10 / 10 = y / 10000)
    by (rewrite !N.Div0.div_div; reflexivity).
  rewrite H4, H3, H2.
  assert (L1 : 100 <= y / 10) by (apply N.div_le_lower_bound; lia).
  assert (L2 : 10 <= y / 100) by (apply N.div_le_lower_bound; lia).
  assert (L3 : 1 <= y / 1000) by (apply N.div_le_lower_bound; lia).
  assert (L4 : y / 10000 = 0) by (apply N.div_small; lia).
  repeat split; try lia.
Qed.

Lemma fuel_for_year (y : N) :
  1000 <= y -> exists f, S (N.to_nat (N.log2 y)) = S (S (S (S f))).
Proof.
  intros Hy.
  assert (H : N.log2 512 <= N.log2 y) by (apply N.log2_le_mono; lia).
  change (N.log2 512) with 9 in H.
  exists (N.to_nat (N.log2 y) - 3)%nat. lia.
Qed.

Lemma decimal_four_digits (y : N) :
  1000 <= y <= 9999 -> decimal y = four_digits y.
Proof.
  intros Hy. unfold decimal.
  destruct (fuel_for_year y (proj1 Hy)) as [f ->].
  destruct (div_chain y Hy) as (N1 & N2 & N3 & Z4 & E2 & E3).
  cbn [decimal_aux].
  apply N.eqb_neq in N1, N2, N3. apply N.eqb_eq in Z4.
  rewrite N1, N2, N3, Z4, E3, E2. reflexivity.
Qed.

Lemma strftime_dd_mm_yyyy (d : datetime) :
  1000 <= year d <= 9999 ->
  strftime "%d/%m/%Y" d = dd_mm_yyyy d.
Proof.
  intros Hy. cbn [strftime Ascii.eqb Bool.eqb directive].
  cbn -[decimal pad2 digit N.div].
  rewrite (decimal_four_digits _ Hy). reflexivity.
Qed.

Lemma digit_value (n : N) : N_of_ascii (digit n) - 48 = n mod 10.
Proof.
  unfold digit. rewrite N_ascii_embedding by div_lia. div_lia.
Qed.

Lemma int_pad2 (n : N) : n < 100 -> int (pad2 n) = Some n.
Proof.
  intros Hn. unfold int, pad2. cbn [int_aux].
  rewrite !digit_is_digit, !digit_value. f_equal. div_lia.
Qed.

Lemma int_four_digits (y : N) : y < 10000 -> int (four_digits y) = Some y.
Proof.
  intros Hy. unfold int, four_digits.
  cbn [string_of_list_ascii int_aux].
  rewrite !digit_is_digit, !digit_value. f_equal. div_lia.
Qed.

Lemma in_range_bounds (d : datetime) :
  in_range d = true ->
  1 <= year d <= 9999 /\ 1 <= month d <= 12 /\ 1 <= day d <= 31.
Proof.
  unfold in_range. rewrite !andb_true_iff, !N.leb_le. tauto.
Qed.

(** The fields of a date read back from its DD/MM/YYYY text. *)
Lemma dd_mm_yyyy_fields (d : datetime) :
  in_range d = true ->
  int (substring 0 2 (dd_mm_yyyy d)) = Some (day d) /\
  int (substring 3 2 (dd_mm_yyyy d)) = Some (month d) /\
  int (substring 6 4 (dd_mm_yyyy d)) = Some (year d).
Proof.
  intros Hr. apply in_range_bounds in Hr.
  destruct Hr as (Hy & Hm & Hd).
  change (substring 0 2 (dd_mm_yyyy d)) with (pad2 (day d)).
  change (substring 3 2 (dd_mm_yyyy d)) with (pad2 (month d)).
  change (substring 6 4 (dd_mm_yyyy d)) with (four_digits (year d)).
  repeat split; [apply int_pad2 | apply int_pad2 | apply int_four_digits]; lia.
Qed.

End DatetimeFacts.

(** ** Loading the module *)

Section Loading.

Variable renderer : string -> kwargs -> result string.

Lemma extend_extend (w : World) (l1 l2 : list Event) :
  extend (extend w l1) l2 = extend w (l1 ++ l2).
Proof.
  unfold extend; cbn. now rewrite <- app_assoc.
Qed.

Lemma deployment_info_run (w : World) :
  deployment_info w =
    (Ok {| DEVOPS_STAGE := "Stage 1"; DEV_NAME := "Ibrahim Nassar";
           DEPLOY_DATE := Datetime.strftime "%d/%m/%Y" (clock w) |},
     extend w [EvClockRead (clock w)]).
Proof. reflexivity. Qed.

(** [run] with both arguments given serves on them, whatever the
    configuration of the application says. *)
Lemma run_explicit {G : Type} (a : Flask.App G) (h : string) (p : N)
    (w : World) :
  h <> "" -> Flask.run a (Some h) (Some p) w = (Ok tt, extend w [EvRun h p]).
Proof.
  intros Hh. unfold Flask.run.
  destruct (match lookup "SERVER_NAME" (Flask.config a) with
            | Some sn => Flask.partition_colon sn
            | None => ("", "")
            end) as [sn_host sn_port].
  apply String.eqb_neq in Hh. rewrite Hh. reflexivity.
Qed.

Lemma app_py_run (name : string) (w : World) :
  app_py renderer name w =
    (Ok {| app := loaded_app renderer name;
           info := {| DEVOPS_STAGE := "Stage 1";
                      DEV_NAME := "Ibrahim Nassar";
                      DEPLOY_DATE :=
                        Datetime.strftime "%d/%m/%Y" (clock w) |} |},
     extend w (load_events name w)).
Proof.
  unfold app_py, bind. rewrite deployment_info_run. unfold load_events.
  destruct (String.eqb name "__main__").
  - rewrite run_explicit by discriminate. unfold ret.
    now rewrite extend_extend.
  - reflexivity.
Qed.

Lemma app_py_inv (name : string) (w w1 : World) (ns : Namespace) :
  app_py renderer name w = (Ok ns, w1) ->
  app ns = loaded_app renderer name /\
  info ns = {| DEVOPS_STAGE := "Stage 1"; DEV_NAME := "Ibrahim Nassar";
               DEPLOY_DATE := Datetime.strftime "%d/%m/%Y" (clock w) |} /\
  w1 = extend w (load_events name w).
Proof.
  rewrite app_py_run. intros H. injection H as <- <-. auto.
Qed.

End Loading.

(** ** Dispatching a request over the loaded module *)

Section Dispatch.

Variable renderer : string -> kwargs -> result string.

Lemma loaded_url_map (name : string) :
  Flask.url_map (loaded_app renderer name) = [static_rule; root_rule].
Proof. reflexivity. Qed.

Lemma loaded_view_functions (name : string) :
  Flask.view_functions (loaded_app renderer name) =
    [("home", home renderer); ("static", Flask.send_static_file)].
Proof. reflexivity. Qed.

Lemma loaded_error_handlers (name : string) :
  Flask.error_handler_spec (loaded_app renderer name) = [].
Proof. reflexivity. Qed.

Lemma static_rule_no_match (p : string) :
  Flask.strip_prefix "/static/" p = None ->
  Flask.rule_match static_rule p = None.
Proof.
  intros H. unfold Flask.rule_match, static_rule.
  cbn -[Flask.strip_prefix]. now rewrite H.
Qed.

Lemma static_rule_not_root : Flask.rule_match static_rule "/" = None.
Proof. reflexivity. Qed.

Lemma root_rule_match (p : string) :
  Flask.rule_match root_rule p = if String.eqb p "/" then Some [] else None.
Proof. reflexivity. Qed.

Lemma home_run (req : Request) (args : kwargs) (g : DeploymentInfo)
    (w : World) :
  home renderer req args g w =
    (match renderer "index.html" (template_context g) with
     | Ok page => Ok (Flask.RvStr page)
     | Raise e => Raise e
     end,
     extend w [EvRender "index.html" (template_context g)]).
Proof.
  unfold home, render_template, bind, log, ret.
  now destruct (renderer "index.html" (template_context g)).
Qed.

Lemma wsgi_root_view (name : string) (g : DeploymentInfo) (req : Request)
    (w : World) :
  path req = "/" -> method req = "GET" \/ method req = "HEAD" ->
  Flask.wsgi_app (loaded_app renderer name) g req w =
    (match renderer "index.html" (template_context g) with
     | Ok page => Ok (Flask.make_response (Flask.RvStr page))
     | Raise e => Ok (Flask.handle_exception (loaded_app renderer name) e)
     end,
     extend w [EvRender "index.html" (template_context g)]).
Proof.
  intros Hp Hm. unfold Flask.wsgi_app, Flask.dispatch_request.
  rewrite loaded_url_map, loaded_view_functions, Hp.
  destruct Hm as [-> | ->]; cbn -[home];
    rewrite home_run;
    now destruct (renderer "index.html" (template_context g)).
Qed.

Lemma wsgi_root_not_allowed (name : string) (g : DeploymentInfo)
    (req : Request) (w : World) :
  path req = "/" ->
  Flask.mem (method req) ["GET"; "OPTIONS"; "HEAD"] = false ->
  Flask.wsgi_app (loaded_app renderer name) g req w =
    (Ok (Flask.default_error_response 405), w).
Proof.
  intros Hp Hm. unfold Flask.wsgi_app, Flask.dispatch_request.
  rewrite loaded_url_map, Hp. cbn [Flask.url_match].
  rewrite static_rule_not_root, root_rule_match. cbn [String.eqb Ascii.eqb Bool.eqb].
  change (Flask.methods root_rule) with ["GET"; "OPTIONS"; "HEAD"].
  rewrite Hm. reflexivity.
Qed.

Lemma wsgi_not_found (name : string) (g : DeploymentInfo) (req : Request)
    (w : World) :
  path req <> "/" ->
  Flask.strip_prefix "/static/" (path req) = None ->
  Flask.wsgi_app (loaded_app renderer name) g req w =
    (Ok (Flask.default_error_response 404), w).
Proof.
  intros Hp Hs. unfold Flask.wsgi_app, Flask.dispatch_request.
  apply String.eqb_neq in Hp.
  rewrite loaded_url_map. cbn [Flask.url_match].
  rewrite (static_rule_no_match _ Hs), root_rule_match, Hp. reflexivity.
Qed.

Lemma extend_nil (w : World) : extend w [] = w.
Proof.
  destruct w; unfold extend; cbn. now rewrite app_nil_r.
Qed.

Lemma send_static_file_run (req : Request) (args : kwargs)
    (g : DeploymentInfo) (w : World) :
  exists r, Flask.send_static_file req args g w = (r, w).
Proof.
  unfold Flask.send_static_file.
  destruct (lookup "filename" args) as [f|]; [|eauto].
  destruct (lookup f (static_folder w)); eauto.
Qed.

Lemma wsgi_any (name : string) (g : DeploymentInfo) (req : Request)
    (w : World) :
  exists resp evs,
    Flask.wsgi_app (loaded_app renderer name) g req w = (Ok resp, extend w evs) /\
    request_events g evs.
Proof.
  unfold Flask.wsgi_app, Flask.dispatch_request.
  rewrite loaded_url_map, loaded_view_functions.
  cbn [Flask.url_match]. rewrite root_rule_match.
  change (Flask.methods static_rule) with ["GET"; "OPTIONS"; "HEAD"].
  change (Flask.methods root_rule) with ["GET"; "OPTIONS"; "HEAD"].
  destruct (Flask.rule_match static_rule (path req)) as [args|];
    destruct (Flask.mem (method req) ["GET"; "OPTIONS"; "HEAD"]);
    destruct (String.eqb (path req) "/");
    destruct (String.eqb (method req) "OPTIONS");
    cbn [Flask.provide_automatic_options Flask.endpoint static_rule
         root_rule andb lookup String.eqb Ascii.eqb Bool.eqb app];
    unfold raise, ret;
    try (destruct (send_static_file_run req args g w) as [[v|e] ->]);
    try (rewrite home_run;
         destruct (renderer "index.html" (template_context g)));
    try (eexists; exists []; rewrite extend_nil;
         split; [reflexivity | left; reflexivity]);
    try (eexists; eexists; split; [reflexivity | right; reflexivity]).
Qed.

End Dispatch.

(** ** The requests of a process lifetime *)

Section Serving.

Variable renderer : string -> kwargs -> result string.

Lemma count_clock_reads_app (l1 l2 : list Event) :
  count_clock_reads (l1 ++ l2) =
    (count_clock_reads l1 + count_clock_reads l2)%nat.
Proof.
  unfold count_clock_reads. now rewrite filter_app, length_app.
Qed.

Lemma count_clock_reads_renders (c : kwargs) (evs : list Event) :
  Forall (fun e => e = EvRender "index.html" c) evs ->
  count_clock_reads evs = 0%nat.
Proof.
  induction 1 as [|e evs He _ IH]; [reflexivity|].
  subst e. exact IH.
Qed.

Lemma request_events_renders (g : DeploymentInfo) (evs : list Event) :
  request_events g evs ->
  Forall (fun e => e = EvRender "index.html" (template_context g)) evs.
Proof.
  intros [-> | ->]; repeat constructor.
Qed.

Lemma serve_any (ns : Namespace) (name : string) :
  app ns = loaded_app renderer name ->
  forall reqs w,
    exists resps w',
      serve ns reqs w = (Ok resps, w') /\
      length resps = length reqs /\
      exists evs,
        trace w' = trace w ++ evs /\
        Forall (fun e => e = EvRender "index.html" (template_context (info ns)))
               evs.
Proof.
  intros Happ. induction reqs as [|[t req] rest IH]; intros w.
  - exists [], w. repeat split. exists []. split; [now rewrite app_nil_r|constructor].
  - cbn [serve]. unfold bind, handle. rewrite Happ.
    destruct (wsgi_any renderer name (info ns) req (set_clock t w))
      as (resp & evs1 & -> & Hev1).
    destruct (IH (extend (set_clock t w) evs1))
      as (resps & w' & -> & Hlen & evs2 & Htr & Hev2).
    exists (resp :: resps), w'. unfold ret. repeat split.
    + cbn. now rewrite Hlen.
    + exists (evs1 ++ evs2). split.
      * rewrite Htr. cbn. now rewrite app_assoc.
      * apply Forall_app. split; [now apply request_events_renders|exact Hev2].
Qed.

End Serving.

(** * The application's behaviour *)

Section Claims.

Variable renderer : string -> kwargs -> result string.

Lemma mem_three (m : string) :
  m <> "GET" -> m <> "HEAD" -> m <> "OPTIONS" ->
  Flask.mem m ["GET"; "OPTIONS"; "HEAD"] = false.
Proof.
  intros H1 H2 H3. apply String.eqb_neq in H1, H2, H3.
  unfold Flask.mem. cbn [existsb]. now rewrite H1, H2, H3.
Qed.

Lemma load_events_one_read (name : string) (w : World) :
  count_clock_reads (load_events name w) = 1%nat.
Proof.
  unfold load_events. now destruct (String.eqb name "__main__").
Qed.

(** C1: a GET request to "/" is answered with the page the renderer
    produces for [index.html] and the deployment information, with status
    200 and content type text/html. *)
Theorem home_get_root_response (name : string) (w0 w1 w : World)
    (ns : Namespace) (req : Request) (html : string) :
  app_py renderer name w0 = (Ok ns, w1) ->
  method req = "GET" -> path req = "/" ->
  renderer "index.html" (template_context (info ns)) = Ok html ->
  home renderer req [] (info ns) w =
    (Ok (Flask.RvStr html),
     extend w [EvRender "index.html" (template_context (info ns))]) /\
  exists resp,
    handle ns req w =
      (Ok resp, extend w [EvRender "index.html" (template_context (info ns))]) /\
    body resp = html /\ status resp = 200 /\
    mimetype resp = "text/html" /\
    content_type resp = "text/html; charset=utf-8".
Proof.
  intros Hload Hm Hp Hr.
  destruct (app_py_inv renderer _ _ _ _ Hload) as (Happ & _ & _).
  split.
  - rewrite home_run, Hr. reflexivity.
  - unfold handle. rewrite Happ, wsgi_root_view by auto. rewrite Hr.
    eexists. split; [reflexivity|]. cbn. auto.
Qed.

(** C2: at process start the deployment information is stage "Stage 1",
    developer "Ibrahim Nassar" and the date of the clock as zero-padded
    day, zero-padded month and four-digit year; computing it takes no
    input and does nothing but read the clock once. *)
Theorem deployment_info_at_start (name : string) (w : World) :
  Datetime.in_range (clock w) = true ->
  1000 <= Datetime.year (clock w) ->
  deployment_info w =
    (Ok {| DEVOPS_STAGE := "Stage 1"; DEV_NAME := "Ibrahim Nassar";
           DEPLOY_DATE := Datetime.dd_mm_yyyy (clock w) |},
     extend w [EvClockRead (clock w)]) /\
  Datetime.matches_ddmmyyyy (Datetime.dd_mm_yyyy (clock w)) = true /\
  int (substring 0 2 (Datetime.dd_mm_yyyy (clock w)))
    = Some (Datetime.day (clock w)) /\
  int (substring 3 2 (Datetime.dd_mm_yyyy (clock w)))
    = Some (Datetime.month (clock w)) /\
  int (substring 6 4 (Datetime.dd_mm_yyyy (clock w)))
    = Some (Datetime.year (clock w)) /\
  count_clock_reads (trace (extend w [EvClockRead (clock w)]))
    = S (count_clock_reads (trace w)) /\
  exists ns w1,
    app_py renderer name w = (Ok ns, w1) /\
    info ns = {| DEVOPS_STAGE := "Stage 1"; DEV_NAME := "Ibrahim Nassar";
                 DEPLOY_DATE := Datetime.dd_mm_yyyy (clock w) |}.
Proof.
  intros Hr Hy.
  pose proof (DatetimeFacts.in_range_bounds _ Hr) as (Hy' & _ & _).
  assert (Hfmt : Datetime.strftime "%d/%m/%Y" (clock w)
                 = Datetime.dd_mm_yyyy (clock w))
    by (apply DatetimeFacts.strftime_dd_mm_yyyy; lia).
  destruct (DatetimeFacts.dd_mm_yyyy_fields _ Hr) as (Hd & Hm & Hyr).
  split; [now rewrite deployment_info_run, Hfmt|].
  split; [apply DatetimeFacts.matches_dd_mm_yyyy|].
  repeat (split; [assumption|]).
  split.
  - cbn [trace extend]. rewrite count_clock_reads_app. cbn. lia.
  - rewrite app_py_run, Hfmt. eauto.
Qed.

(** C3: the deployment information is computed once, when the process
    starts, and every request of the process lifetime hands the renderer
    the same values, whatever the clock shows when the request arrives. *)
Theorem deployment_info_computed_once (name : string)
    (reqs : list (Datetime.datetime * Request)) (w : World) :
  exists resps w' evs,
    process renderer name reqs w = (Ok resps, w') /\
    length resps = length reqs /\
    trace w' = trace w ++ load_events name w ++ evs /\
    count_clock_reads (trace w') = S (count_clock_reads (trace w)) /\
    Forall (fun e => e = EvRender "index.html"
              [("stage", "Stage 1"); ("dev_name", "Ibrahim Nassar");
               ("deploy_date", Datetime.strftime "%d/%m/%Y" (clock w))])
           evs.
Proof.
  unfold process, bind. rewrite app_py_run.
  match goal with
  | |- context [serve ?ns ?r ?w1] =>
      destruct (serve_any renderer ns name eq_refl r w1)
        as (resps & w' & Hs & Hlen & evs & Htr & Hev)
  end.
  exists resps, w', evs. rewrite Hs.
  cbn [trace extend] in Htr. cbn [info template_context DEVOPS_STAGE
    DEV_NAME DEPLOY_DATE] in Hev.
  rewrite <- app_assoc in Htr.
  repeat split; try assumption.
  rewrite Htr, !count_clock_reads_app, load_events_one_read.
  rewrite (count_clock_reads_renders _ _ Hev). lia.
Qed.

(** C4: when the renderer fails with TemplateNotFound or
    TemplateRenderError, [home] lets the exception through unchanged, the
    application has no error handler of its own, and the request is
    answered with Flask's default 500 page. *)
Theorem renderer_failure_is_500 (name : string) (w0 w1 w : World)
    (ns : Namespace) (req : Request) (e : exn) :
  app_py renderer name w0 = (Ok ns, w1) ->
  method req = "GET" -> path req = "/" ->
  renderer "index.html" (template_context (info ns)) = Raise e ->
  (exists n, e = TemplateNotFound n) \/ (exists x, e = TemplateRenderError x) ->
  home renderer req [] (info ns) w =
    (Raise e, extend w [EvRender "index.html" (template_context (info ns))]) /\
  Flask.error_handler_spec (app ns) = [] /\
  handle ns req w =
    (Ok (Flask.default_error_response 500),
     extend w [EvRender "index.html" (template_context (info ns))]) /\
  status (Flask.default_error_response 500) = 500.
Proof.
  intros Hload Hm Hp Hr He.
  destruct (app_py_inv renderer _ _ _ _ Hload) as (Happ & _ & _).
  split; [now rewrite home_run, Hr|].
  split; [now rewrite Happ|].
  split; [|reflexivity].
  unfold handle. rewrite Happ, wsgi_root_view by auto. rewrite Hr.
  destruct He as [[n ->] | [x ->]]; reflexivity.
Qed.

(** C5, as the code has it: the module registers one rule, "/", without a
    [methods] argument, and no error handler; Flask makes the rule answer
    GET, HEAD and OPTIONS and keeps its own rule for "/static/".  A request
    to "/" with any other method gets the default 405 response, and a
    request to a path other than "/" and outside "/static/" the default
    404 response; neither runs any code of the application. *)
Theorem default_routing (name : string) (w0 w1 w : World)
    (ns : Namespace) (req : Request) :
  app_py renderer name w0 = (Ok ns, w1) ->
  Flask.url_map (app ns) = [static_rule; root_rule] /\
  Flask.error_handler_spec (app ns) = [] /\
  (path req = "/" ->
   method req <> "GET" -> method req <> "HEAD" -> method req <> "OPTIONS" ->
   handle ns req w = (Ok (Flask.default_error_response 405), w)) /\
  (path req <> "/" ->
   Flask.strip_prefix "/static/" (path req) = None ->
   handle ns req w = (Ok (Flask.default_error_response 404), w)).
Proof.
  intros Hload.
  destruct (app_py_inv renderer _ _ _ _ Hload) as (Happ & _ & _).
  unfold handle. rewrite Happ. repeat split.
  - intros Hp H1 H2 H3.
    apply wsgi_root_not_allowed; [assumption | now apply mem_three].
  - intros Hp Hs. now apply wsgi_not_found.
Qed.

(** C6: [home] calls the renderer once, with the template name
    [index.html] and the three keywords stage, dev_name and deploy_date,
    bound to the stage, the developer name and the deployment date. *)
Theorem home_renderer_arguments (req : Request) (args : kwargs)
    (g : DeploymentInfo) (w : World) :
  exists r,
    home renderer req args g w =
      (r, extend w [EvRender "index.html"
                      [("stage", DEVOPS_STAGE g);
                       ("dev_name", DEV_NAME g);
                       ("deploy_date", DEPLOY_DATE g)]]) /\
    keys (template_context g) = ["stage"; "dev_name"; "deploy_date"] /\
    lookup "stage" (template_context g) = Some (DEVOPS_STAGE g) /\
    lookup "dev_name" (template_context g) = Some (DEV_NAME g) /\
    lookup "deploy_date" (template_context g) = Some (DEPLOY_DATE g).
Proof.
  rewrite home_run. eexists. repeat split.
Qed.

(** C7: run as a script, the module asks Flask to serve on 0.0.0.0, port
    5000: literal arguments, which win over the configuration and do not
    depend on the environment. *)
Theorem server_bind_address (w : World) :
  (forall env,
     exists ns,
       app_py renderer "__main__" (set_environ env w) =
         (Ok ns, extend (set_environ env w)
                   [EvClockRead (clock w); EvRun "0.0.0.0" 5000])) /\
  (forall a : Flask.App DeploymentInfo,
     Flask.run a (Some "0.0.0.0") (Some 5000) w =
       (Ok tt, extend w [EvRun "0.0.0.0" 5000])).
Proof.
  split.
  - intros env. rewrite app_py_run. eauto.
  - intros a. apply run_explicit. discriminate.
Qed.

(** C9: [home] reads nothing of the request: two GET requests to "/"
    handled by one process, whatever they carry, lead to the same call of
    the renderer and to the same response. *)
Theorem home_ignores_request (name : string) (w0 w1 wa wb : World)
    (ns : Namespace) (r1 r2 : Request) :
  app_py renderer name w0 = (Ok ns, w1) ->
  method r1 = "GET" -> path r1 = "/" ->
  method r2 = "GET" -> path r2 = "/" ->
  (forall a1 a2 g, home renderer r1 a1 g = home renderer r2 a2 g) /\
  exists resp evs,
    handle ns r1 wa = (resp, extend wa evs) /\
    handle ns r2 wb = (resp, extend wb evs) /\
    render_calls evs = [("index.html", template_context (info ns))].
Proof.
  intros Hload Hm1 Hp1 Hm2 Hp2.
  destruct (app_py_inv renderer _ _ _ _ Hload) as (Happ & _ & _).
  split; [reflexivity|].
  unfold handle. rewrite Happ, !wsgi_root_view by auto.
  eexists. eexists. repeat split.
Qed.

(** C10: loaded under any name but [__main__], the module defines the
    deployment information and registers the route but does not start the
    server; run as [__main__] it does. *)
Theorem import_does_not_serve (name : string) (w : World) :
  name <> "__main__" ->
  (exists ns,
     app_py renderer name w = (Ok ns, extend w [EvClockRead (clock w)]) /\
     run_calls (trace (extend w [EvClockRead (clock w)]))
       = run_calls (trace w) /\
     info ns = {| DEVOPS_STAGE := "Stage 1"; DEV_NAME := "Ibrahim Nassar";
                  DEPLOY_DATE :=
                    Datetime.strftime "%d/%m/%Y" (clock w) |} /\
     In root_rule (Flask.url_map (app ns)) /\
     lookup "home" (Flask.view_functions (app ns)) = Some (home renderer)) /\
  (exists ns w',
     app_py renderer "__main__" w = (Ok ns, w') /\
     run_calls (trace w') = run_calls (trace w) ++ [("0.0.0.0", 5000)]).
Proof.
  intros Hn. apply String.eqb_neq in Hn. split.
  - rewrite app_py_run. unfold load_events. rewrite Hn.
    eexists. split; [reflexivity|]. repeat split.
    + cbn [trace extend]. unfold run_calls.
      rewrite flat_map_app. cbn. now rewrite app_nil_r.
    + cbn. auto.
  - rewrite app_py_run. eexists. eexists. split; [reflexivity|].
    cbn [trace extend]. unfold run_calls.
    rewrite flat_map_app. reflexivity.
Qed.

End Claims.

(** ** The rendered page *)

Module TemplateFacts.
Import Templates.

Lemma substitute_raises (t : Template) (ctx : kwargs) (e : exn) :
  substitute t ctx = Raise e -> exists x, e = TemplateRenderError x.
Proof.
  revert e. induction t as [|[s|x] t IH]; intros e; cbn [substitute].
  - discriminate.
  - destruct (substitute t ctx); [discriminate|].
    intros H. injection H as <-. now apply IH.
  - destruct (lookup x ctx); [|intros H; injection H as <-; eauto].
    destruct (substitute t ctx); [discriminate|].
    intros H. injection H as <-. now apply IH.
Qed.

Lemma append_assoc (a b c : string) :
  ((a ++ b) ++ c = a ++ b ++ c)%string.
Proof.
  induction a as [|ch a IH]; cbn; [reflexivity|now rewrite IH].
Qed.

(** The value of every placeholder of the template is in the page. *)
Lemma substitute_contains (t : Template) (ctx : kwargs) (x v page : string) :
  substitute t ctx = Ok page ->
  In (Placeholder x) t -> lookup x ctx = Some v ->
  exists pre post, (page = pre ++ v ++ post)%string.
Proof.
  revert page. induction t as [|seg t IH]; intros page Hs Hin Hv.
  - destruct Hin.
  - destruct Hin as [-> | Hin].
    + cbn [substitute] in Hs. rewrite Hv in Hs.
      destruct (substitute t ctx) as [r|]; [|discriminate].
      injection Hs as <-. now exists EmptyString, r.
    + destruct seg as [s|y]; cbn [substitute] in Hs.
      * destruct (substitute t ctx) as [r|]; [|discriminate].
        injection Hs as <-.
        destruct (IH r eq_refl Hin Hv) as (pre & post & ->).
        exists (s ++ pre)%string, post. now rewrite append_assoc.
      * destruct (lookup y ctx) as [u|]; [|discriminate].
        destruct (substitute t ctx) as [r|]; [|discriminate].
        injection Hs as <-.
        destruct (IH r eq_refl Hin Hv) as (pre & post & ->).
        exists (u ++ pre)%string, post. now rewrite append_assoc.
Qed.

Lemma prefix_append (sub post : string) :
  String.prefix sub (sub ++ post) = true.
Proof.
  induction sub as [|c sub IH]; cbn; [now destruct post|].
  now destruct (ascii_dec c c).
Qed.

Lemma contains_append (sub pre post : string) :
  contains sub (pre ++ sub ++ post) = true.
Proof.
  induction pre as [|c pre IH].
  - cbn [append]. destruct (sub ++ post)%string eqn:E;
      cbn [contains]; rewrite <- E, prefix_append; reflexivity.
  - cbn [append contains]. rewrite IH. apply orb_true_r.
Qed.

Lemma contains_date_unfold (s : string) :
  contains_date s =
    Datetime.matches_ddmmyyyy (substring 0 10 s) ||
    match s with
    | EmptyString => false
    | String _ s' => contains_date s'
    end.
Proof. now destruct s. Qed.

Lemma contains_date_append (d : Datetime.datetime) (pre post : string) :
  contains_date (pre ++ Datetime.dd_mm_yyyy d ++ post) = true.
Proof.
  induction pre as [|c pre IH].
  - cbn [append]. rewrite contains_date_unfold.
    assert (E : substring 0 10 (Datetime.dd_mm_yyyy d ++ post)
                = Datetime.dd_mm_yyyy d).
    { unfold Datetime.dd_mm_yyyy.
      cbn [string_of_list_ascii append substring]. now destruct post. }
    now rewrite E, DatetimeFacts.matches_dd_mm_yyyy.
  - cbn [append contains_date]. rewrite IH. apply orb_true_r.
Qed.

End TemplateFacts.

(** C8: with a template [index.html] that has the placeholders stage,
    dev_name and deploy_date, the body of every successful answer to GET
    "/" contains "Stage 1", "Ibrahim Nassar" and a date of the layout
    DD/MM/YYYY. *)
Theorem page_contains_metadata
    (templates : list (string * Templates.Template))
    (t : Templates.Template) (name : string) (w0 w1 w w' : World)
    (ns : Namespace) (req : Request) (resp : Response) :
  lookup "index.html" templates = Some t ->
  In (Templates.Placeholder "stage") t ->
  In (Templates.Placeholder "dev_name") t ->
  In (Templates.Placeholder "deploy_date") t ->
  Datetime.in_range (clock w0) = true ->
  1000 <= Datetime.year (clock w0) ->
  app_py (Templates.page_renderer templates) name w0 = (Ok ns, w1) ->
  method req = "GET" -> path req = "/" ->
  handle ns req w = (Ok resp, w') ->
  status resp = 200 ->
  contains "Stage 1" (body resp) = true /\
  contains "Ibrahim Nassar" (body resp) = true /\
  contains_date (body resp) = true.
Proof.
  intros Ht Hs Hn Hd Hr Hy Hload Hm Hp Hh H200.
  destruct (app_py_inv _ _ _ _ _ Hload) as (Happ & Hinfo & _).
  pose proof (DatetimeFacts.in_range_bounds _ Hr) as (Hy' & _ & _).
  rewrite DatetimeFacts.strftime_dd_mm_yyyy in Hinfo by lia.
  unfold handle in Hh. rewrite Happ, wsgi_root_view in Hh by auto.
  unfold Templates.page_renderer in Hh. rewrite Ht in Hh.
  destruct (Templates.substitute t (template_context (info ns)))
    as [page|e] eqn:Hsub.
  - injection Hh as <- _. cbn [Flask.make_response body].
    rewrite Hinfo in Hsub.
    destruct (TemplateFacts.substitute_contains _ _ "stage" _ _ Hsub Hs eq_refl)
      as (p1 & q1 & E1).
    destruct (TemplateFacts.substitute_contains _ _ "dev_name" _ _ Hsub Hn eq_refl)
      as (p2 & q2 & E2).
    destruct (TemplateFacts.substitute_contains _ _ "deploy_date" _ _ Hsub Hd eq_refl)
      as (p3 & q3 & E3).
    cbn [DEVOPS_STAGE DEV_NAME DEPLOY_DATE] in E1, E2, E3.
    repeat split.
    + rewrite E1. apply TemplateFacts.contains_append.
    + rewrite E2. apply TemplateFacts.contains_append.
    + rewrite E3. apply TemplateFacts.contains_date_append.
  - destruct (TemplateFacts.substitute_raises _ _ _ Hsub) as [x ->].
    injection Hh as <- _. discriminate H200.
Qed.

(** ** The claims on the sample deployment *)

Lemma sample_loaded (r : string -> kwargs -> result string) :
  app_py r "app" Sample.world =
    (Ok (Sample.namespace r),
     extend Sample.world [EvClockRead (clock Sample.world)]).
Proof. reflexivity. Qed.

Lemma sample_page :
  Sample.renderer "index.html" (template_context Sample.deployment)
    = Ok Sample.page.
Proof. reflexivity. Qed.

Lemma sample_year : 1000 <= Datetime.year (clock Sample.world).
Proof. cbn. lia. Qed.

Lemma home_get_root_response_example :
  method Sample.busy_request = "GET" /\
  path Sample.busy_request = "/" /\
  exists resp,
    handle (Sample.namespace Sample.renderer) Sample.busy_request Sample.world =
      (Ok resp,
       extend Sample.world
         [EvRender "index.html" (template_context Sample.deployment)]) /\
    body resp = Sample.page /\ status resp = 200 /\
    mimetype resp = "text/html" /\
    content_type resp = "text/html; charset=utf-8".
Proof.
  split; [reflexivity|]. split; [reflexivity|].
  exact (proj2 (home_get_root_response Sample.renderer "app" Sample.world _
                  Sample.world _ Sample.busy_request Sample.page
                  (sample_loaded _) eq_refl eq_refl sample_page)).
Defined.

Lemma deployment_info_at_start_example :
  Datetime.in_range (clock Sample.world) = true /\
  deployment_info Sample.world =
    (Ok Sample.deployment,
     extend Sample.world [EvClockRead (clock Sample.world)]) /\
  Datetime.matches_ddmmyyyy "05/04/2024" = true.
Proof.
  split; [reflexivity|].
  pose proof (deployment_info_at_start Sample.renderer "app" Sample.world
                eq_refl sample_year) as (H1 & H2 & _).
  split; [exact H1 | exact H2].
Defined.

Lemma renderer_failure_is_500_example :
  Sample.no_templates "index.html" (template_context Sample.deployment)
    = Raise (TemplateNotFound "index.html") /\
  handle (Sample.namespace Sample.no_templates)
         (Sample.request "GET" "/") Sample.world =
    (Ok (Flask.default_error_response 500),
     extend Sample.world
       [EvRender "index.html" (template_context Sample.deployment)]).
Proof.
  split; [reflexivity|].
  exact (proj1 (proj2 (proj2
           (renderer_failure_is_500 Sample.no_templates "app" Sample.world _
              Sample.world _ (Sample.request "GET" "/")
              (TemplateNotFound "index.html")
              (sample_loaded _) eq_refl eq_refl eq_refl
              (or_introl (ex_intro _ "index.html" eq_refl)))))).
Defined.

Lemma default_routing_example :
  handle (Sample.namespace Sample.renderer)
         (Sample.request "POST" "/") Sample.world =
    (Ok (Flask.default_error_response 405), Sample.world) /\
  handle (Sample.namespace Sample.renderer)
         (Sample.request "GET" "/about") Sample.world =
    (Ok (Flask.default_error_response 404), Sample.world).
Proof.
  split.
  - apply (proj1 (proj2 (proj2
             (default_routing Sample.renderer "app" Sample.world _
                Sample.world _ (Sample.request "POST" "/")
                (sample_loaded _))))); [reflexivity | | | ]; discriminate.
  - apply (proj2 (proj2 (proj2
             (default_routing Sample.renderer "app" Sample.world _
                Sample.world _ (Sample.request "GET" "/about")
                (sample_loaded _))))); [discriminate | reflexivity].
Defined.

(** C5 as the specification words it does not hold: a HEAD and an OPTIONS
    request to "/" are answered with status 200, not 405, and a POST to a
    path under "/static/" with 405, not 404. *)
Lemma non_get_root_is_answered :
  method (Sample.request "HEAD" "/") <> "GET" /\
  path (Sample.request "HEAD" "/") = "/" /\
  handle (Sample.namespace Sample.renderer)
         (Sample.request "HEAD" "/") Sample.world =
    (Ok {| status := 200; mimetype := "text/html";
           response_headers := []; body := Sample.page |},
     extend Sample.world
       [EvRender "index.html" (template_context Sample.deployment)]) /\
  handle (Sample.namespace Sample.renderer)
         (Sample.request "OPTIONS" "/") Sample.world =
    (Ok {| status := 200; mimetype := "text/html";
           response_headers := [("Allow", "GET, OPTIONS, HEAD")];
           body := "" |},
     Sample.world) /\
  path (Sample.request "POST" "/static/app.css") <> "/" /\
  handle (Sample.namespace Sample.renderer)
         (Sample.request "POST" "/static/app.css") Sample.world =
    (Ok (Flask.default_error_response 405), Sample.world).
Proof.
  repeat split; discriminate.
Qed.

Lemma home_ignores_request_example :
  Sample.busy_request <> Sample.request "GET" "/" /\
  exists resp evs,
    handle (Sample.namespace Sample.renderer) Sample.busy_request
           Sample.world = (resp, extend Sample.world evs) /\
    handle (Sample.namespace Sample.renderer) (Sample.request "GET" "/")
           (set_clock Sample.later Sample.world) =
      (resp, extend (set_clock Sample.later Sample.world) evs) /\
    render_calls evs = [("index.html", template_context Sample.deployment)].
Proof.
  split; [discriminate|].
  exact (proj2 (home_ignores_request Sample.renderer "app" Sample.world _
                  Sample.world (set_clock Sample.later Sample.world) _
                  Sample.busy_request (Sample.request "GET" "/")
                  (sample_loaded _) eq_refl eq_refl eq_refl eq_refl)).
Defined.

Lemma import_does_not_serve_example :
  "app" <> "__main__" /\
  exists ns,
    app_py Sample.renderer "app" Sample.world =
      (Ok ns, extend Sample.world [EvClockRead (clock Sample.world)]) /\
    run_calls (trace (extend Sample.world [EvClockRead (clock Sample.world)]))
      = run_calls (trace Sample.world).
Proof.
  assert (Hn : "app" <> "__main__") by discriminate.
  split; [exact Hn|].
  destruct (proj1 (import_does_not_serve Sample.renderer "app" Sample.world Hn))
    as (ns & H1 & H2 & _).
  exists ns. split; [exact H1 | exact H2].
Defined.

Lemma page_contains_metadata_example :
  contains "Stage 1" Sample.page = true /\
  contains "Ibrahim Nassar" Sample.page = true /\
  contains_date Sample.page = true.
Proof.
  apply (page_contains_metadata [("index.html", Sample.index_html)]
           Sample.index_html "app" Sample.world
           (extend Sample.world [EvClockRead (clock Sample.world)])
           Sample.world
           (extend Sample.world
              [EvRender "index.html" (template_context Sample.deployment)])
           (Sample.namespace Sample.renderer) (Sample.request "GET" "/")
           {| status := 200; mimetype := "text/html";
              response_headers := []; body := Sample.page |});
    try reflexivity; cbn; try lia; auto 10.
Defined.

(** * Further properties of [app.py] *)

Section Further.

Variable renderer : string -> kwargs -> result string.

Lemma send_static_file_frame (req : Request) (args : kwargs)
    (g : DeploymentInfo) (w w' : World) :
  static_folder w = static_folder w' ->
  exists r,
    Flask.send_static_file req args g w = (r, w) /\
    Flask.send_static_file req args g w' = (r, w').
Proof.
  intros Hs. unfold Flask.send_static_file. rewrite <- Hs.
  destruct (lookup "filename" args) as [f|]; [|eauto].
  destruct (lookup f (static_folder w)); eauto.
Qed.

(** The answer to a request depends on the world through the static
    folder only, and not on the name the module was loaded under. *)
Lemma wsgi_frame (n1 n2 : string) (g : DeploymentInfo) (req : Request)
    (w w' : World) :
  static_folder w = static_folder w' ->
  exists resp evs,
    Flask.wsgi_app (loaded_app renderer n1) g req w = (Ok resp, extend w evs) /\
    Flask.wsgi_app (loaded_app renderer n2) g req w' = (Ok resp, extend w' evs) /\
    request_events g evs.
Proof.
  intros Hs. unfold Flask.wsgi_app, Flask.dispatch_request.
  rewrite !loaded_url_map, !loaded_view_functions.
  cbn [Flask.url_match]. rewrite root_rule_match.
  change (Flask.methods static_rule) with ["GET"; "OPTIONS"; "HEAD"].
  change (Flask.methods root_rule) with ["GET"; "OPTIONS"; "HEAD"].
  destruct (Flask.rule_match static_rule (path req)) as [args|];
    destruct (Flask.mem (method req) ["GET"; "OPTIONS"; "HEAD"]);
    destruct (String.eqb (path req) "/");
    destruct (String.eqb (method req) "OPTIONS");
    cbn [Flask.provide_automatic_options Flask.endpoint static_rule
         root_rule andb lookup String.eqb Ascii.eqb Bool.eqb app];
    unfold raise, ret;
    try (destruct (send_static_file_frame req args g w w' Hs)
           as ([v|e] & -> & ->));
    try (rewrite !home_run;
         destruct (renderer "index.html" (template_context g)));
    try (eexists; exists []; rewrite !extend_nil;
         split; [reflexivity | split; [reflexivity | left; reflexivity]]);
    try (eexists; eexists;
         split; [reflexivity | split; [reflexivity | right; reflexivity]]).
Qed.

Lemma serve_frame (ns1 ns2 : Namespace) (n1 n2 : string) :
  app ns1 = loaded_app renderer n1 ->
  app ns2 = loaded_app renderer n2 ->
  info ns1 = info ns2 ->
  forall reqs w w',
    static_folder w = static_folder w' ->
    exists resps w1 w1' evs,
      serve ns1 reqs w = (Ok resps, w1) /\
      serve ns2 reqs w' = (Ok resps, w1') /\
      trace w1 = trace w ++ evs /\
      trace w1' = trace w' ++ evs.
Proof.
  intros A1 A2 Hi. induction reqs as [|[t req] rest IH]; intros w w' Hs.
  - exists [], w, w', []. now rewrite !app_nil_r.
  - cbn [serve]. unfold bind, handle. rewrite A1, A2, <- Hi.
    destruct (wsgi_frame n1 n2 (info ns1) req (set_clock t w) (set_clock t w') Hs)
      as (resp & evs1 & -> & -> & _).
    destruct (IH (extend (set_clock t w) evs1) (extend (set_clock t w') evs1) Hs)
      as (resps & w1 & w1' & evs2 & -> & -> & T1 & T2).
    exists (resp :: resps), w1, w1', (evs1 ++ evs2). unfold ret.
    repeat split.
    + rewrite T1. cbn. now rewrite app_assoc.
    + rewrite T2. cbn. now rewrite app_assoc.
Qed.

(** X1: the deployment date is the calendar date of the clock and nothing
    else: two starts give the same deployment information exactly when
    their clocks show the same day, month and year, whatever the time of
    day. *)
Theorem deploy_date_same_day (w1 w2 : World) :
  Datetime.in_range (clock w1) = true -> 1000 <= Datetime.year (clock w1) ->
  Datetime.in_range (clock w2) = true -> 1000 <= Datetime.year (clock w2) ->
  fst (deployment_info w1) = fst (deployment_info w2) <->
  Datetime.day (clock w1) = Datetime.day (clock w2) /\
  Datetime.month (clock w1) = Datetime.month (clock w2) /\
  Datetime.year (clock w1) = Datetime.year (clock w2).
Proof.
  intros R1 Y1 R2 Y2.
  pose proof (DatetimeFacts.in_range_bounds _ R1) as (B1 & _ & _).
  pose proof (DatetimeFacts.in_range_bounds _ R2) as (B2 & _ & _).
  rewrite !deployment_info_run. cbn [fst].
  rewrite !DatetimeFacts.strftime_dd_mm_yyyy by lia.
  destruct (DatetimeFacts.dd_mm_yyyy_fields _ R1) as (D1 & M1 & V1).
  destruct (DatetimeFacts.dd_mm_yyyy_fields _ R2) as (D2 & M2 & V2).
  split.
  - intros H.
    assert (E : Datetime.dd_mm_yyyy (clock w1) = Datetime.dd_mm_yyyy (clock w2))
      by congruence.
    rewrite E in D1, M1, V1.
    rewrite D2 in D1. rewrite M2 in M1. rewrite V2 in V1.
    injection D1 as ->. injection M1 as ->. injection V1 as ->. auto.
  - intros (Hd & Hm & Hy). unfold Datetime.dd_mm_yyyy.
    now rewrite Hd, Hm, Hy.
Qed.

(** X2: the renderer is called for a request exactly when the request is
    a GET or a HEAD on "/", and then once; every other request is answered
    without running [home]. *)
Theorem renderer_runs_only_for_root (name : string) (w0 w1 w : World)
    (ns : Namespace) (req : Request) :
  app_py renderer name w0 = (Ok ns, w1) ->
  exists resp,
    handle ns req w =
      (Ok resp,
       extend w
         (if String.eqb (path req) "/" &&
             (String.eqb (method req) "GET" || String.eqb (method req) "HEAD")
          then [EvRender "index.html" (template_context (info ns))]
          else [])).
Proof.
  intros Hload.
  destruct (app_py_inv renderer _ _ _ _ Hload) as (Happ & _ & _).
  unfold handle. rewrite Happ.
  destruct (String.eqb (path req) "/") eqn:Hp; cbn [andb].
  - apply String.eqb_eq in Hp.
    destruct (String.eqb (method req) "GET") eqn:Hg; cbn [orb];
      [|destruct (String.eqb (method req) "HEAD") eqn:Hh].
    + apply String.eqb_eq in Hg. rewrite wsgi_root_view by auto.
      destruct (renderer "index.html" (template_context (info ns))); eauto.
    + apply String.eqb_eq in Hh. rewrite wsgi_root_view by auto.
      destruct (renderer "index.html" (template_context (info ns))); eauto.
    + rewrite extend_nil.
      unfold Flask.wsgi_app, Flask.dispatch_request.
      rewrite loaded_url_map, Hp. cbn [Flask.url_match].
      rewrite static_rule_not_root, root_rule_match.
      cbn [String.eqb Ascii.eqb Bool.eqb].
      change (Flask.methods root_rule) with ["GET"; "OPTIONS"; "HEAD"].
      unfold Flask.mem. cbn [existsb]. rewrite Hg, Hh. cbn [orb].
      destruct (String.eqb (method req) "OPTIONS"); cbn; eauto.
  - rewrite extend_nil.
    unfold Flask.wsgi_app, Flask.dispatch_request.
    rewrite loaded_url_map, loaded_view_functions.
    cbn [Flask.url_match]. rewrite root_rule_match, Hp.
    change (Flask.methods static_rule) with ["GET"; "OPTIONS"; "HEAD"].
    destruct (Flask.rule_match static_rule (path req)) as [args|];
      destruct (Flask.mem (method req) ["GET"; "OPTIONS"; "HEAD"]);
      destruct (String.eqb (method req) "OPTIONS");
      cbn [Flask.provide_automatic_options Flask.endpoint static_rule
           andb lookup String.eqb Ascii.eqb Bool.eqb List.app];
      unfold raise, ret;
      try (destruct (send_static_file_run req args (info ns) w)
             as [[v|e] ->]);
      eauto.
Qed.


(** X4: the name the module runs under decides only whether the server
    is started: run as a script or imported, the process gives the same
    answers to the same requests and makes the same renderer calls. *)
Theorem script_and_import_answer_alike (n1 n2 : string)
    (reqs : list (Datetime.datetime * Request)) (w : World) :
  exists resps w1 w2,
    process renderer n1 reqs w = (Ok resps, w1) /\
    process renderer n2 reqs w = (Ok resps, w2) /\
    render_calls (trace w1) = render_calls (trace w2).
Proof.
  unfold process, bind. rewrite !app_py_run.
  match goal with
  | |- context [serve ?ns1 ?r (extend w (load_events n1 w))] =>
    match goal with
    | |- context [serve ?ns2 r (extend w (load_events n2 w))] =>
      destruct (serve_frame ns1 ns2 n1 n2 eq_refl eq_refl eq_refl r
                  (extend w (load_events n1 w))
                  (extend w (load_events n2 w)) eq_refl)
        as (resps & w1 & w2 & evs & H1 & H2 & T1 & T2)
    end
  end.
  exists resps, w1, w2. rewrite H1, H2. repeat split.
  rewrite T1, T2. cbn [trace extend]. unfold render_calls, load_events.
  rewrite !flat_map_app.
  destruct (String.eqb n1 "__main__"), (String.eqb n2 "__main__");
    reflexivity.
Qed.

End Further.

Lemma deploy_date_same_day_example :
  clock (set_clock (Datetime.mk 2024 4 5 23 59 59) Sample.world)
    <> clock Sample.world /\
  fst (deployment_info Sample.world) =
  fst (deployment_info
         (set_clock (Datetime.mk 2024 4 5 23 59 59) Sample.world)).
Proof.
  split; [discriminate|].
  apply (proj2 (deploy_date_same_day Sample.world
                  (set_clock (Datetime.mk 2024 4 5 23 59 59) Sample.world)
                  eq_refl sample_year eq_refl sample_year)).
  repeat split.
Defined.

Lemma renderer_runs_only_for_root_example :
  (exists resp,
     handle (Sample.namespace Sample.renderer)
            (Sample.request "GET" "/static/app.css") Sample.world =
       (Ok resp, extend Sample.world [])) /\
  (exists resp,
     handle (Sample.namespace Sample.renderer)
            (Sample.request "HEAD" "/") Sample.world =
       (Ok resp,
        extend Sample.world
          [EvRender "index.html" (template_context Sample.deployment)])).
Proof.
  split.
  - exact (renderer_runs_only_for_root Sample.renderer "app" Sample.world _
             Sample.world _ (Sample.request "GET" "/static/app.css")
             (sample_loaded _)).
  - exact (renderer_runs_only_for_root Sample.renderer "app" Sample.world _
             Sample.world _ (Sample.request "HEAD" "/")
             (sample_loaded _)).
Defined.
